(** * my_mmap_drv: a shallow embedding of the mmap example driver

    The driver in [driver/my_mmap_drv.c] hands one zeroed page per open file
    to user space through the [fault] method of a VMA.  This development
    embeds the file operations ([my_open], [my_mmap]) and the VMA operations
    ([my_vma_open], [my_vma_close], [my_vma_nopage]) as functions on an
    explicit kernel state, and states the properties of the mapping engine
    over them. *)

From Stdlib Require Import ZArith Lia Strings.Byte.
From stdpp Require Import base list gmap strings.

Local Open Scope Z_scope.

(** ** Data model *)

(** [struct mmap_info { void *data; int ref; }].  Pointers and the
    [unsigned long] addresses of a VMA are kept in [Z], with [0] for
    [NULL]: the driver only compares them and adds a string length to
    one.  [ref] is a C [int]; its arithmetic goes through [int_wrap]. *)
Record mmap_info := mk_info { data : Z; ref : Z }.

(** The address of an operations table; the driver has exactly one. *)
Inductive vm_ops_ptr := ops_NULL | ops_my_vm_ops.

(** The fields of [struct vm_area_struct] the driver reads or writes. *)
Record vm_area_struct := mk_vma {
  vm_start : Z;
  vm_end : Z;
  vm_flags : Z;
  vm_ops : vm_ops_ptr;
  vm_private_data : Z
}.

(** [struct vm_fault]: the faulting address and the slot for the result. *)
Record vm_fault := mk_vmf { virtual_address : Z; page : Z }.

(** [struct file]: the dentry name (a C string: the bytes at the pointer)
    and the driver's private pointer. *)
Record file := mk_file { d_name : list byte; private_data : Z }.

(** Lines sent to the kernel log. *)
Inductive printk_line := pr_info (s : string) | pr_err (s : string).

(** The kernel state the driver acts on: the [mmap_info] objects living in
    slab memory, byte-addressed memory for pages, the calls made to the
    page accounting primitive [get_page] (oldest first), and the log. *)
Record kernel := mk_kernel {
  kheap : gmap Z mmap_info;
  kmem : gmap Z byte;
  got_pages : list Z;
  klog : list printk_line
}.

(** What the slab and page allocators answer to one [my_open]: the pointer
    [kmalloc] returns ([0] when it fails) together with the stale contents
    of that block ([kmalloc] does not clear it), and the address
    [get_zeroed_page] returns ([0] when it fails). *)
Record allocation := mk_alloc {
  kmalloc_ret : Z;
  kmalloc_junk : mmap_info;
  page_ret : Z
}.

(** ** Kernel computations

    A driver function either returns to its caller with a value and a new
    state, or dereferences an invalid pointer; [Oops] keeps the state at
    that point. *)
Inductive outcome (A : Type) :=
| Done (a : A) (k : kernel)
| Oops (k : kernel).
Arguments Done {A} a k.
Arguments Oops {A} k.

Definition kM (A : Type) : Type := kernel -> outcome A.

Definition kret {A} (a : A) : kM A := fun k => Done a k.

Definition kbind {A B} (m : kM A) (f : A -> kM B) : kM B :=
  fun k => match m k with
           | Done a k' => f a k'
           | Oops k' => Oops k'
           end.

Notation "'kdo' x <- m ; f" := (kbind m (fun x => f))
  (at level 10, x name, m at level 100, f at level 200,
   format "'[v' 'kdo'  x  <-  m ; '/' f ']'").

(** C [int] arithmetic: the result of [++] and [--] reduced to 32 bits,
    two's complement. *)
Definition INT_MAX : Z := 2 ^ 31 - 1.
Definition INT_MIN : Z := - 2 ^ 31.
Definition int_wrap (z : Z) : Z := (z + 2 ^ 31) mod 2 ^ 32 - 2 ^ 31.

(** *** State accessors *)

Definition set_kheap (h : gmap Z mmap_info) (k : kernel) : kernel :=
  mk_kernel h (kmem k) (got_pages k) (klog k).

Definition set_kmem (m : gmap Z byte) (k : kernel) : kernel :=
  mk_kernel (kheap k) m (got_pages k) (klog k).

Definition printk (l : printk_line) : kM unit :=
  fun k => Done tt (mk_kernel (kheap k) (kmem k) (got_pages k) (klog k ++ [l])).

(** [PRINTFUNC()]: [pr_info("== %s ==\n", __func__)]; a line is kept
    without its newline. *)
Definition PRINTFUNC (func : string) : kM unit :=
  printk (pr_info ("== " +:+ func +:+ " ==")).

(** [get_page(page)]: the platform's use-count increment. *)
Definition get_page (pg : Z) : kM unit :=
  fun k => Done tt (mk_kernel (kheap k) (kmem k) (got_pages k ++ [pg]) (klog k)).

(** Reading and writing [*info]; an address that holds no [mmap_info]
    ([NULL] in particular) faults. *)
Definition read_info (p : Z) : kM mmap_info :=
  fun k => match kheap k !! p with
           | Some i => Done i k
           | None => Oops k
           end.

Definition write_info (p : Z) (i : mmap_info) : kM unit :=
  fun k => match kheap k !! p with
           | Some _ => Done tt (set_kheap (<[p := i]> (kheap k)) k)
           | None => Oops k
           end.

(** *** Strings and byte copies *)

Definition msg : list byte :=
  String.list_byte_of_string "My mmap options implement, this is file: ".

(** [strlen]: the bytes before the first NUL. *)
Fixpoint strlen (s : list byte) : nat :=
  match s with
  | [] => 0%nat
  | b :: r => if Byte.eqb b x00 then 0%nat else S (strlen r)
  end.

Fixpoint store_bytes (a : Z) (bs : list byte) (m : gmap Z byte) : gmap Z byte :=
  match bs with
  | [] => m
  | b :: r => store_bytes (a + 1) r (<[a := b]> m)
  end.

(** [memcpy(dst, src, n)]: a copy to [NULL] faults, any other destination
    is written byte by byte, wherever it lies. *)
Definition memcpy (dst : Z) (src : list byte) (n : nat) : kM unit :=
  fun k => if (dst =? 0) && negb (Nat.eqb n 0)
           then Oops k
           else Done tt (set_kmem (store_bytes dst (take n src) (kmem k)) k).

(** The bytes of memory at [a, a + n). *)
Fixpoint load_bytes (a : Z) (n : nat) (m : gmap Z byte) : list (option byte) :=
  match n with
  | O => []
  | S n' => m !! a :: load_bytes (a + 1) n' m
  end.

(** ** The platform

    Constants and macros of the kernel headers the driver is compiled
    against.  [VM_FAULT_SIGBUS] is a fault code, distinct from the [0] a
    fault handler returns on success. *)
Class Platform := {
  PAGE_SIZE : Z;
  VM_FAULT_SIGBUS : Z;
  VM_DONTEXPAND : Z;
  VM_DONTDUMP : Z;
  virt_to_page : Z -> Z;
  VM_FAULT_SIGBUS_nonzero : VM_FAULT_SIGBUS <> 0
}.

(** ** The driver *)

Section Driver.

Context `{Platform}.

(** [kmalloc(sizeof(struct mmap_info), GFP_KERNEL)] *)
Definition kmalloc (a : allocation) : kM Z :=
  fun k => if kmalloc_ret a =? 0 then Done 0 k
           else Done (kmalloc_ret a)
                     (set_kheap (<[kmalloc_ret a := kmalloc_junk a]> (kheap k)) k).

(** [get_zeroed_page(GFP_KERNEL)] *)
Definition get_zeroed_page (a : allocation) : kM Z :=
  fun k => if page_ret a =? 0 then Done 0 k
           else Done (page_ret a)
                     (set_kmem (store_bytes (page_ret a)
                                  (replicate (Z.to_nat PAGE_SIZE) x00) (kmem k)) k).

Definition my_vma_open (vma : vm_area_struct) : kM unit :=
  let info := vm_private_data vma in
  kdo i <- read_info info;
  kdo _ <- write_info info (mk_info (data i) (int_wrap (ref i + 1)));
  PRINTFUNC "my_vma_open".

Definition my_vma_close (vma : vm_area_struct) : kM unit :=
  let info := vm_private_data vma in
  kdo i <- read_info info;
  kdo _ <- write_info info (mk_info (data i) (int_wrap (ref i - 1)));
  PRINTFUNC "my_vma_close".

(** [vma] is [None] for a null pointer; the result is the return value
    and the fault descriptor as the function leaves it. *)
Definition my_vma_nopage (vma : option vm_area_struct) (vmf : vm_fault)
  : kM (Z * vm_fault) :=
  match vma with
  | None =>
      kdo _ <- printk (pr_err "== my_vma_nopage: invalid address! ==");
      kret (VM_FAULT_SIGBUS, vmf)
  | Some v =>
      if virtual_address vmf >? vm_end v then
        kdo _ <- printk (pr_err "== my_vma_nopage: invalid address! ==");
        kret (VM_FAULT_SIGBUS, vmf)
      else
        kdo info <- read_info (vm_private_data v);
        if data info =? 0 then
          kdo _ <- printk (pr_err "== my_vma_nopage: No data pool pointer ==");
          kret (VM_FAULT_SIGBUS, vmf)
        else
          kdo _ <- PRINTFUNC "my_vma_nopage";
          let pg := virt_to_page (data info) in
          kdo _ <- get_page pg;
          kret (0, mk_vmf (virtual_address vmf) pg)
  end.

Definition my_open (a : allocation) (filp : file) : kM (Z * file) :=
  kdo _ <- PRINTFUNC "my_open";
  kdo info <- kmalloc a;
  kdo pg <- get_zeroed_page a;
  kdo i <- read_info info;
  kdo _ <- write_info info (mk_info pg (ref i));
  kdo i' <- read_info info;
  kdo _ <- memcpy (data i') msg (strlen msg);
  kdo _ <- memcpy (data i' + Z.of_nat (strlen msg))
                  (d_name filp) (strlen (d_name filp));
  kret (0, mk_file (d_name filp) info).

Definition my_mmap (filp : file) (vma : vm_area_struct) : kM (Z * vm_area_struct) :=
  let vma1 := mk_vma (vm_start vma) (vm_end vma) (vm_flags vma) ops_my_vm_ops
                     (vm_private_data vma) in
  let vma2 := mk_vma (vm_start vma1) (vm_end vma1)
                     (Z.lor (vm_flags vma1) (Z.lor VM_DONTEXPAND VM_DONTDUMP))
                     (vm_ops vma1) (vm_private_data vma1) in
  let vma3 := mk_vma (vm_start vma2) (vm_end vma2) (vm_flags vma2) (vm_ops vma2)
                     (private_data filp) in
  kdo _ <- my_vma_open vma3;
  kret (0, vma3).

(** [struct vm_operations_struct] and the driver's table. *)
Record vm_operations_struct := mk_vm_ops {
  open : vm_area_struct -> kM unit;
  close : vm_area_struct -> kM unit;
  fault : option vm_area_struct -> vm_fault -> kM (Z * vm_fault)
}.

Definition my_vm_ops : vm_operations_struct :=
  {| open := my_vma_open; close := my_vma_close; fault := my_vma_nopage |}.

(** *** Notifications on an established region

    The kernel calls [open] when a VMA gains a reference (fork, split)
    and [close] when one goes away. *)
Inductive vma_event := ev_open | ev_close.

Definition deliver (vma : vm_area_struct) (e : vma_event) : kM unit :=
  match e with
  | ev_open => open my_vm_ops vma
  | ev_close => close my_vm_ops vma
  end.

Fixpoint deliver_all (vma : vm_area_struct) (evs : list vma_event) : kM unit :=
  match evs with
  | [] => kret tt
  | e :: r => kdo _ <- deliver vma e; deliver_all vma r
  end.

(** [establish filp vma evs]: [my_mmap] creates the region, then the
    notifications [evs] arrive in order. *)
Definition establish (filp : file) (vma : vm_area_struct) (evs : list vma_event)
  : kM unit :=
  kdo r <- my_mmap filp vma;
  deliver_all (snd r) evs.

End Driver.

Fixpoint count_open (evs : list vma_event) : Z :=
  match evs with
  | [] => 0
  | ev_open :: r => 1 + count_open r
  | ev_close :: r => count_open r
  end.

Fixpoint count_close (evs : list vma_event) : Z :=
  match evs with
  | [] => 0
  | ev_open :: r => count_close r
  | ev_close :: r => 1 + count_close r
  end.

(** The reference count of the [mmap_info] at [p], when there is one. *)
Definition ref_at (p : Z) (k : kernel) : option Z := ref <$> kheap k !! p.

(** The lines a computation added to a log that was [k]'s. *)
Definition new_lines (k k' : kernel) : list printk_line :=
  drop (length (klog k)) (klog k').

Definition is_pr_err (l : printk_line) : bool :=
  match l with pr_err _ => true | pr_info _ => false end.

(** The characters of a C string: what lies before its terminator. *)
Definition c_string (s : list byte) : list byte := take (strlen s) s.

(** A page that holds [msg], then the characters of [name], then zeros. *)
Definition page_image `{Platform} (name : list byte) : list byte :=
  msg ++ c_string name ++
  replicate (Z.to_nat PAGE_SIZE - length msg - strlen name) x00.

(** [open_then_mmap]: a handle is opened and mapped at once. *)
Definition open_then_mmap `{Platform} (a : allocation) (filp : file)
    (vma : vm_area_struct) : kM (file * vm_area_struct) :=
  kdo r <- my_open a filp;
  kdo r' <- my_mmap (snd r) vma;
  kret (snd r, snd r').

(** A platform to run the driver on: 4 KiB pages, the flag values of
    [linux/mm.h], and struct pages identified by page frame number. *)
Definition linux_4k : Platform := {|
  PAGE_SIZE := 4096;
  VM_FAULT_SIGBUS := 2;
  VM_DONTEXPAND := 0x00040000;
  VM_DONTDUMP := 0x04000000;
  virt_to_page := fun a => a / 4096;
  VM_FAULT_SIGBUS_nonzero := ltac:(discriminate)
|}.

(** ** Sample inputs *)

Definition dev0 : list byte := String.list_byte_of_string "dev0".
Definition dev1 : list byte := String.list_byte_of_string "dev1".

(** An idle kernel: nothing allocated, nothing logged. *)
Definition k_idle : kernel := mk_kernel ∅ ∅ [] [].

(** A kernel with one open handle: its [mmap_info] at [0x3e8] owns the
    page at [0x2000] and counts [r] mappings. *)
Definition k_handle (r : Z) : kernel :=
  mk_kernel {[ 1000 := mk_info 8192 r ]} ∅ [] [].

Definition filp_handle : file := mk_file dev0 1000.

(** A one-page region [0x1000, 0x2000) bound to that handle. *)
Definition vma_handle : vm_area_struct :=
  mk_vma 4096 8192 0 ops_my_vm_ops 1000.

(** A request for a mapping, as the kernel passes it to [mmap]. *)
Definition vma_request : vm_area_struct :=
  mk_vma 4096 8192 0 ops_NULL 0.

(** Allocator answers: both succeed (the slab block holds a stale [7] in
    [ref]), a second pair from other memory, and the two failures. *)
Definition alloc_ok : allocation := mk_alloc 1000 (mk_info 77 7) 8192.
Definition alloc_ok' : allocation := mk_alloc 2000 (mk_info 0 0) 16384.
Definition alloc_no_info : allocation := mk_alloc 0 (mk_info 0 0) 8192.
Definition alloc_no_page : allocation := mk_alloc 1000 (mk_info 0 0) 0.

(** A name too long for the page once the prefix is in front of it. *)
Definition long_name : list byte := replicate 4056 "a"%byte.

(** Faults on the region: at its first byte, below it, above its end. *)
Definition vmf_start : vm_fault := mk_vmf 4096 0.
Definition vmf_below : vm_fault := mk_vmf 2048 0.
Definition vmf_above : vm_fault := mk_vmf 12288 0.

(** The kernel of [k_handle 1] after a fault was refused. *)
Definition k_sigbus : kernel :=
  mk_kernel {[ 1000 := mk_info 8192 1 ]} ∅ []
    [pr_err "== my_vma_nopage: invalid address! =="].

(** Runs of notifications: a fork followed by two unmaps, and as many
    forks as an [int] can count. *)
Definition fork_unmap_unmap : list vma_event := [ev_open; ev_close; ev_close].
Definition many_opens : list vma_event := replicate (Z.to_nat INT_MAX) ev_open.

(** ** Release, load and unload

    The rest of the driver calls three more platform primitives:
    [free_page], [misc_register] and [misc_deregister].  A [machine] is a
    kernel together with the calls made to them, oldest first. *)

(** The address of a [struct file_operations]. *)
Inductive fops_ptr := fops_NULL | fops_my_fops.

(** [struct miscdevice]. *)
Record miscdevice := mk_miscdev { minor : Z; name : string; fops : fops_ptr }.

Inductive platform_call :=
| call_free_page (addr : Z)
| call_misc_register (d : miscdevice)
| call_misc_deregister (d : miscdevice).

Record machine := mk_machine { m_kernel : kernel; m_calls : list platform_call }.

Inductive m_outcome (A : Type) :=
| MDone (a : A) (m : machine)
| MOops (m : machine).
Arguments MDone {A} a m.
Arguments MOops {A} m.

Definition mM (A : Type) : Type := machine -> m_outcome A.

Definition mret {A} (a : A) : mM A := fun m => MDone a m.

Definition mbind {A B} (c : mM A) (f : A -> mM B) : mM B :=
  fun m => match c m with
           | MDone a m' => f a m'
           | MOops m' => MOops m'
           end.

Notation "'mdo' x <- c ; f" := (mbind c (fun x => f))
  (at level 10, x name, c at level 100, f at level 200,
   format "'[v' 'mdo'  x  <-  c ; '/' f ']'").

(** A kernel computation, run on the kernel of the machine. *)
Definition lift_k {A} (c : kM A) : mM A :=
  fun m => match c (m_kernel m) with
           | Done a k => MDone a (mk_machine k (m_calls m))
           | Oops k => MOops (mk_machine k (m_calls m))
           end.

Definition platform_do (c : platform_call) : mM unit :=
  fun m => MDone tt (mk_machine (m_kernel m) (m_calls m ++ [c])).

(** [kfree(p)]: the object leaves slab memory. *)
Definition kfree (p : Z) : kM unit :=
  fun k => Done tt (set_kheap (delete p (kheap k)) k).

(** [free_page(addr)] *)
Definition free_page (addr : Z) : mM unit := platform_do (call_free_page addr).

(** [misc_register(&dev)]; [ret] is what the registry answers, [0] when
    it accepts the device. *)
Definition misc_register (ret : Z) (d : miscdevice) : mM Z :=
  mdo _ <- platform_do (call_misc_register d);
  mret ret.

(** [misc_deregister(&dev)] *)
Definition misc_deregister (d : miscdevice) : mM unit :=
  platform_do (call_misc_deregister d).

Definition DEVNAME : string := "my_mmap".

Definition my_miscdev : miscdevice :=
  {| minor := 99; name := DEVNAME; fops := fops_my_fops |}.

Definition my_release (filp : file) : mM (Z * file) :=
  let info := private_data filp in
  mdo _ <- lift_k (PRINTFUNC "my_release");
  mdo i <- lift_k (read_info info);
  mdo _ <- free_page (data i);
  mdo _ <- lift_k (kfree info);
  mret (0, mk_file (d_name filp) 0).

Definition my_mmap_example_init (ret : Z) : mM Z :=
  mdo r <- misc_register ret my_miscdev;
  if negb (r =? 0) then
    mdo _ <- lift_k (printk (pr_err "== my_mmap_example_init: misc register failed =="));
    mret r
  else
    mdo _ <- lift_k (PRINTFUNC "my_mmap_example_init");
    mret 0.

Definition my_mmap_example_exit : mM unit :=
  mdo _ <- misc_deregister my_miscdev;
  lift_k (PRINTFUNC "my_mmap_example_exit").

Section Lifecycle.

Context `{Platform}.

(** [struct file_operations] and the driver's table.  [open] takes the
    allocators' answers besides the file. *)
Record file_operations := mk_fops {
  fops_open : allocation -> file -> kM (Z * file);
  fops_release : file -> mM (Z * file);
  fops_mmap : file -> vm_area_struct -> kM (Z * vm_area_struct)
}.

Definition my_fops : file_operations :=
  {| fops_open := my_open; fops_release := my_release; fops_mmap := my_mmap |}.



(** *** Calls on regions

    What the kernel may ask of the driver once handles are open: a new
    mapping, a notification, a fault.  Results are dropped; the state
    carries on. *)
Inductive region_call :=
| rc_mmap (filp : file) (vma : vm_area_struct)
| rc_notify (vma : vm_area_struct) (e : vma_event)
| rc_fault (vma : vm_area_struct) (vmf : vm_fault).

Definition region_call_run (c : region_call) : kM unit :=
  match c with
  | rc_mmap filp vma => kdo _ <- fops_mmap my_fops filp vma; kret tt
  | rc_notify vma e => deliver vma e
  | rc_fault vma vmf => kdo _ <- fault my_vm_ops (Some vma) vmf; kret tt
  end.

Fixpoint region_calls_run (cs : list region_call) : kM unit :=
  match cs with
  | [] => kret tt
  | c :: r => kdo _ <- region_call_run c; region_calls_run r
  end.

(** The [mmap_info] a call goes through. *)
Definition region_call_info (c : region_call) : Z :=
  match c with
  | rc_mmap filp _ => private_data filp
  | rc_notify vma _ => vm_private_data vma
  | rc_fault vma _ => vm_private_data vma
  end.

(** Faults on one region, one after the other; the results in order. *)
Fixpoint faults (vma : vm_area_struct) (vmfs : list vm_fault)
  : kM (list (Z * vm_fault)) :=
  match vmfs with
  | [] => kret []
  | vmf :: r =>
      kdo res <- fault my_vm_ops (Some vma) vmf;
      kdo rest <- faults vma r;
      kret (res :: rest)
  end.

(** Two regions mapped from one handle. *)
Definition mmap_twice (filp : file) (vma1 vma2 : vm_area_struct)
  : kM (vm_area_struct * vm_area_struct) :=
  kdo r1 <- fops_mmap my_fops filp vma1;
  kdo r2 <- fops_mmap my_fops filp vma2;
  kret (snd r1, snd r2).

(** A notification and the opposite one right after it. *)
Definition open_close (vma : vm_area_struct) : kM unit :=
  kdo _ <- open my_vm_ops vma; close my_vm_ops vma.

Definition close_open (vma : vm_area_struct) : kM unit :=
  kdo _ <- close my_vm_ops vma; open my_vm_ops vma.

End Lifecycle.

(** A machine that has made no platform call yet. *)
Definition boot (k : kernel) : machine := mk_machine k [].

(** A second request, for the two pages behind the first region. *)
Definition vma_request' : vm_area_struct :=
  mk_vma 8192 16384 0 ops_NULL 0.

(** Three faults on the sample region: first byte, below, first byte. *)
Definition three_faults : list vm_fault := [vmf_start; vmf_below; vmf_start].

(** A mapping, a fault on it, and the region going away. *)
Definition map_fault_unmap : list region_call :=
  [rc_mmap filp_handle vma_request; rc_fault vma_handle vmf_start;
   rc_notify vma_handle ev_close].

(** A fork undone by an unmap. *)
Definition fork_unmap : list vma_event := [ev_open; ev_close].

(** ** Properties *)

Section Properties.

Context `{Platform}.

Implicit Types (k : kernel) (i : mmap_info) (vma v : vm_area_struct)
  (vmf : vm_fault) (filp : file) (a : allocation) (evs : list vma_event).

(** Reduces the state accessors and reads back what was just written. *)
Ltac kernel_simpl :=
  repeat first
    [ progress cbn [kheap kmem got_pages klog set_kheap set_kmem data ref
                    andb negb Z.eqb]
    | rewrite lookup_insert_eq ].

(** *** C integers *)

Lemma int_wrap_small z : INT_MIN <= z <= INT_MAX -> int_wrap z = z.
Proof.
  unfold INT_MIN, INT_MAX, int_wrap. intros Hz.
  rewrite Z.mod_small; lia.
Qed.

Lemma int_wrap_range z : INT_MIN <= int_wrap z <= INT_MAX.
Proof.
  unfold INT_MIN, INT_MAX, int_wrap.
  pose proof (Z.mod_pos_bound (z + 2 ^ 31) (2 ^ 32)). lia.
Qed.

Lemma int_wrap_add z n : int_wrap (int_wrap z + n) = int_wrap (z + n).
Proof.
  unfold int_wrap.
  replace ((z + 2 ^ 31) mod 2 ^ 32 - 2 ^ 31 + n + 2 ^ 31)
    with ((z + 2 ^ 31) mod 2 ^ 32 + n) by lia.
  rewrite Zplus_mod_idemp_l. do 2 f_equal. lia.
Qed.

(** *** Running the VMA notifications *)

Lemma my_vma_open_run vma k i :
  kheap k !! vm_private_data vma = Some i ->
  my_vma_open vma k =
    Done tt (mk_kernel
               (<[vm_private_data vma := mk_info (data i) (int_wrap (ref i + 1))]>
                  (kheap k))
               (kmem k) (got_pages k) (klog k ++ [pr_info "== my_vma_open =="])).
Proof.
  intros Hi. unfold my_vma_open, kbind, read_info, write_info.
  rewrite Hi. simpl. rewrite Hi. reflexivity.
Qed.

Lemma my_vma_close_run vma k i :
  kheap k !! vm_private_data vma = Some i ->
  my_vma_close vma k =
    Done tt (mk_kernel
               (<[vm_private_data vma := mk_info (data i) (int_wrap (ref i - 1))]>
                  (kheap k))
               (kmem k) (got_pages k) (klog k ++ [pr_info "== my_vma_close =="])).
Proof.
  intros Hi. unfold my_vma_close, kbind, read_info, write_info.
  rewrite Hi. simpl. rewrite Hi. reflexivity.
Qed.



Lemma new_lines_app k h m g ls :
  new_lines k (mk_kernel h m g (klog k ++ ls)) = ls.
Proof. unfold new_lines. simpl. apply drop_app_length. Qed.

(** *** Frame of the notifications *)

(** C10: on a region bound to a live [mmap_info], [my_vma_open] and
    [my_vma_close] return and change nothing but the [ref] field of that
    [mmap_info]: page memory, the page use-count calls, every other
    [mmap_info] and the [data] pointer of this one are as before.  The
    region itself is only read: these functions take it by value and hand
    no new one back. *)
Theorem vma_open_close_frame (f : vm_area_struct -> kM unit) vma k i :
  f = my_vma_open \/ f = my_vma_close ->
  kheap k !! vm_private_data vma = Some i ->
  exists k',
    f vma k = Done tt k' /\
    kmem k' = kmem k /\
    got_pages k' = got_pages k /\
    (forall p, p <> vm_private_data vma -> kheap k' !! p = kheap k !! p) /\
    exists r, kheap k' !! vm_private_data vma = Some (mk_info (data i) r).
Proof.
  intros [-> | ->] Hi.
  - rewrite (my_vma_open_run _ _ _ Hi). eexists. split; [reflexivity|]. simpl.
    repeat split.
    + intros p Hp. by rewrite lookup_insert_ne.
    + eexists. apply lookup_insert_eq.
  - rewrite (my_vma_close_run _ _ _ Hi). eexists. split; [reflexivity|]. simpl.
    repeat split.
    + intros p Hp. by rewrite lookup_insert_ne.
    + eexists. apply lookup_insert_eq.
Qed.

(** *** Closing at zero *)

(** C5, as the code has it: [my_vma_close] on a region whose count is
    already zero returns normally, leaves the count at [-1] (neither
    refused nor clamped to zero) and logs only its function-name trace. *)
Theorem my_vma_close_at_zero vma k i :
  kheap k !! vm_private_data vma = Some i ->
  ref i = 0 ->
  exists k',
    my_vma_close vma k = Done tt k' /\
    ref_at (vm_private_data vma) k' = Some (-1) /\
    new_lines k k' = [pr_info "== my_vma_close =="].
Proof.
  intros Hi Hr. rewrite (my_vma_close_run _ _ _ Hi). eexists.
  split; [reflexivity|]. split.
  - unfold ref_at. simpl. rewrite lookup_insert_eq, Hr. reflexivity.
  - apply new_lines_app.
Qed.

(** *** Establishing a mapping *)

Lemma my_mmap_run filp vma k i :
  kheap k !! private_data filp = Some i ->
  my_mmap filp vma k =
    Done (0, mk_vma (vm_start vma) (vm_end vma)
               (Z.lor (vm_flags vma) (Z.lor VM_DONTEXPAND VM_DONTDUMP))
               ops_my_vm_ops (private_data filp))
         (mk_kernel
            (<[private_data filp := mk_info (data i) (int_wrap (ref i + 1))]>
               (kheap k))
            (kmem k) (got_pages k) (klog k ++ [pr_info "== my_vma_open =="])).
Proof.
  intros Hi. unfold my_mmap, kbind. simpl.
  rewrite (my_vma_open_run _ _ i); [reflexivity | exact Hi].
Qed.

(** C9: against an open handle (its private pointer names a live
    [mmap_info]) [my_mmap] returns [0] for every request; the region
    leaves with the driver's table, the two policy flags added, and the
    handle's [mmap_info] bound, whose count went up by one.  Page memory
    and the page use-count calls are as before. *)
Theorem my_mmap_succeeds filp vma k i :
  kheap k !! private_data filp = Some i ->
  exists vma' k',
    my_mmap filp vma k = Done (0, vma') k' /\
    vm_ops vma' = ops_my_vm_ops /\
    vm_flags vma' = Z.lor (vm_flags vma) (Z.lor VM_DONTEXPAND VM_DONTDUMP) /\
    vm_private_data vma' = private_data filp /\
    vm_start vma' = vm_start vma /\ vm_end vma' = vm_end vma /\
    kheap k' =
      <[private_data filp := mk_info (data i) (int_wrap (ref i + 1))]> (kheap k) /\
    kmem k' = kmem k /\ got_pages k' = got_pages k.
Proof.
  intros Hi. rewrite (my_mmap_run _ _ _ _ Hi).
  do 2 eexists. split; [reflexivity|]. simpl. repeat split.
Qed.

(** *** Fault resolution *)

(** C2: a fault at an address inside the range of a region whose
    [mmap_info] has a page returns [0], leaves [virt_to_page] of that
    page in the fault descriptor, and makes exactly one [get_page] call,
    on that page. *)
Theorem fault_in_range_resolves v vmf k i :
  kheap k !! vm_private_data v = Some i ->
  data i <> 0 ->
  vm_start v <= virtual_address vmf < vm_end v ->
  my_vma_nopage (Some v) vmf k =
    Done (0, mk_vmf (virtual_address vmf) (virt_to_page (data i)))
         (mk_kernel (kheap k) (kmem k)
            (got_pages k ++ [virt_to_page (data i)])
            (klog k ++ [pr_info "== my_vma_nopage =="])).
Proof.
  intros Hi Hd Ha. unfold my_vma_nopage, kbind, read_info.
  destruct (Z.gtb_spec (virtual_address vmf) (vm_end v)) as [Hgt|_]; [lia|].
  rewrite Hi. destruct (Z.eqb_spec (data i) 0) as [?|_]; [contradiction|].
  reflexivity.
Qed.

(** C8: whenever [my_vma_nopage] returns [VM_FAULT_SIGBUS], the fault
    descriptor is as it came (no page bound), no [get_page] call was
    made, and neither the [mmap_info] objects nor page memory changed;
    the cause is an absent region, an address above [vm_end], or a null
    [data] pointer. *)
Theorem bus_error_no_side_effect (region : option vm_area_struct) vmf k r vmf' k' :
  my_vma_nopage region vmf k = Done (r, vmf') k' ->
  r = VM_FAULT_SIGBUS ->
  vmf' = vmf /\ got_pages k' = got_pages k /\
  kheap k' = kheap k /\ kmem k' = kmem k /\
  (region = None \/
   exists v, region = Some v /\
     (vm_end v < virtual_address vmf \/
      exists i, kheap k !! vm_private_data v = Some i /\ data i = 0)).
Proof.
  intros Hrun Hr. unfold my_vma_nopage, kbind, read_info in Hrun.
  destruct region as [v|].
  - destruct (Z.gtb_spec (virtual_address vmf) (vm_end v)) as [Hgt|Hle].
    + simpl in Hrun. inversion Hrun; subst. simpl.
      repeat split. right. exists v. split; [reflexivity|]. left. lia.
    + destruct (kheap k !! vm_private_data v) as [i|] eqn:Hi; [|discriminate].
      destruct (Z.eqb_spec (data i) 0) as [Hd|Hd].
      * simpl in Hrun. inversion Hrun; subst. simpl.
        repeat split. right. exists v. split; [reflexivity|]. right. eauto.
      * simpl in Hrun. inversion Hrun; subst.
        exfalso. by apply VM_FAULT_SIGBUS_nonzero.
  - simpl in Hrun. inversion Hrun; subst. simpl. repeat split. by left.
Qed.

(** C1, as the code has it: an absent region always yields
    [VM_FAULT_SIGBUS]; for a region bound to a live [mmap_info] and a
    fault address other than [vm_end], the handler returns, and it
    yields [VM_FAULT_SIGBUS] exactly when the address is above [vm_end]
    or the [data] pointer is null.  There is no comparison with
    [vm_start]: every other fault, also one below the range, returns [0]
    with the page bound. *)
Theorem fault_bus_error_iff v vmf k i :
  kheap k !! vm_private_data v = Some i ->
  virtual_address vmf <> vm_end v ->
  (exists k0, my_vma_nopage None vmf k = Done (VM_FAULT_SIGBUS, vmf) k0) /\
  exists r vmf' k',
    my_vma_nopage (Some v) vmf k = Done (r, vmf') k' /\
    (r = VM_FAULT_SIGBUS <-> vm_end v < virtual_address vmf \/ data i = 0) /\
    (r <> VM_FAULT_SIGBUS -> r = 0 /\ page vmf' = virt_to_page (data i)).
Proof.
  intros Hi Hne. split; [eexists; reflexivity|].
  unfold my_vma_nopage, kbind, read_info.
  destruct (Z.gtb_spec (virtual_address vmf) (vm_end v)) as [Hgt|Hle].
  - do 3 eexists. split; [reflexivity|]. split; [|congruence].
    split; [intros _; left; lia | reflexivity].
  - rewrite Hi. destruct (Z.eqb_spec (data i) 0) as [Hd|Hd].
    + do 3 eexists. split; [reflexivity|]. split; [|congruence].
      split; [intros _; by right | reflexivity].
    + do 3 eexists. split; [reflexivity|]. simpl. split; [|done].
      split.
      * intros H0. exfalso. by apply VM_FAULT_SIGBUS_nonzero.
      * intros [Hlt|Hz]; [lia | contradiction].
Qed.

(** *** The reference count along a run of notifications *)

Lemma count_open_nonneg evs : 0 <= count_open evs.
Proof. induction evs as [|[] r IH]; simpl; lia. Qed.

Lemma count_close_nonneg evs : 0 <= count_close evs.
Proof. induction evs as [|[] r IH]; simpl; lia. Qed.

Lemma count_open_take n evs : count_open (take n evs) <= count_open evs.
Proof.
  revert n. induction evs as [|e r IH]; intros [|n]; simpl; try lia.
  - pose proof (count_open_nonneg (e :: r)). simpl in *. lia.
  - specialize (IH n). destruct e; lia.
Qed.

(** Fewer than [INT_MAX] opens in all keep every prefix within bounds. *)
Lemma few_opens_bound evs :
  count_open evs < INT_MAX ->
  forall n, 1 + count_open (take n evs) - count_close (take n evs) <= INT_MAX.
Proof.
  intros Hmax n. pose proof (count_open_take n evs).
  pose proof (count_close_nonneg (take n evs)). lia.
Qed.

Lemma deliver_ref vma e k i :
  kheap k !! vm_private_data vma = Some i ->
  exists k',
    deliver vma e k = Done tt k' /\
    kheap k' !! vm_private_data vma =
      Some (mk_info (data i)
              (int_wrap (ref i + count_open [e] - count_close [e]))).
Proof.
  intros Hi. destruct e; simpl.
  - rewrite (my_vma_open_run _ _ _ Hi). eexists. split; [reflexivity|].
    simpl. rewrite lookup_insert_eq. do 3 f_equal. lia.
  - rewrite (my_vma_close_run _ _ _ Hi). eexists. split; [reflexivity|].
    simpl. rewrite lookup_insert_eq. do 3 f_equal. lia.
Qed.

(** A run of notifications returns, and moves the count by the opens
    minus the closes, modulo [2 ^ 32]. *)
Lemma deliver_all_ref vma evs : forall k i,
  kheap k !! vm_private_data vma = Some i ->
  INT_MIN <= ref i <= INT_MAX ->
  exists k',
    deliver_all vma evs k = Done tt k' /\
    kheap k' !! vm_private_data vma =
      Some (mk_info (data i)
              (int_wrap (ref i + count_open evs - count_close evs))).
Proof.
  induction evs as [|e r IH]; intros k i Hi Hr.
  - exists k. split; [reflexivity|]. simpl.
    rewrite Hi. destruct i as [d n]. simpl in *.
    rewrite int_wrap_small by lia. do 2 f_equal. lia.
  - destruct (deliver_ref vma e k i Hi) as (k1 & Hrun & Hk1).
    destruct (IH k1 _ Hk1 (int_wrap_range _)) as (k2 & Hrun2 & Hk2).
    exists k2. split.
    + cbn [deliver_all]. unfold kbind. rewrite Hrun. exact Hrun2.
    + rewrite Hk2. cbn [data ref]. rewrite <- Z.add_sub_assoc, int_wrap_add.
      do 3 f_equal. destruct e; simpl; lia.
Qed.

(** C4, as the code has it: take a handle whose count is zero, create a
    region with [my_mmap], and let any notifications arrive such that at
    no point more closes than one plus the opens so far have arrived,
    nor so many opens that one plus the opens minus the closes so far
    goes beyond [INT_MAX].  Then every prefix of the run returns, and
    the count after it is one plus the opens minus the closes so far,
    which is not negative. *)
Theorem refcount_never_negative filp vma k i evs :
  kheap k !! private_data filp = Some i ->
  ref i = 0 ->
  (forall n, count_close (take n evs) <= 1 + count_open (take n evs)) ->
  (forall n, 1 + count_open (take n evs) - count_close (take n evs) <= INT_MAX) ->
  forall n, exists k' r,
    establish filp vma (take n evs) k = Done tt k' /\
    ref_at (private_data filp) k' = Some r /\
    r = 1 + count_open (take n evs) - count_close (take n evs) /\
    0 <= r.
Proof.
  intros Hi Hz Hbal Hmax n.
  unfold establish, kbind. rewrite (my_mmap_run _ _ _ _ Hi). cbn [snd].
  set (k1 := mk_kernel _ _ _ _).
  set (v := mk_vma _ _ _ _ _).
  assert (Hk1 : kheap k1 !! vm_private_data v = Some (mk_info (data i) 1)).
  { unfold k1, v. simpl. rewrite lookup_insert_eq, Hz. reflexivity. }
  destruct (deliver_all_ref v (take n evs) k1 _ Hk1) as (k2 & Hrun & Hk2).
  { unfold INT_MIN, INT_MAX. simpl. lia. }
  exists k2, (1 + count_open (take n evs) - count_close (take n evs)).
  pose proof (Hbal n). pose proof (Hmax n).
  split; [exact Hrun|]. split; [|split; [reflexivity | lia]].
  unfold ref_at. change (private_data filp) with (vm_private_data v).
  rewrite Hk2. cbn [fmap option_fmap option_map ref]. f_equal.
  apply int_wrap_small. unfold INT_MIN, INT_MAX in *. lia.
Qed.

(** *** Byte memory *)

Lemma store_bytes_outside bs : forall (a : Z) (m : gmap Z byte) x,
  x < a \/ a + Z.of_nat (length bs) <= x ->
  store_bytes a bs m !! x = m !! x.
Proof.
  induction bs as [|b r IH]; intros a m x Hx; simpl; [reflexivity|].
  simpl in Hx. rewrite IH by lia. apply lookup_insert_ne. lia.
Qed.

Lemma store_bytes_inside bs : forall (a : Z) (m : gmap Z byte) (j : nat) b,
  bs !! j = Some b ->
  store_bytes a bs m !! (a + Z.of_nat j) = Some b.
Proof.
  induction bs as [|b0 r IH]; intros a m [|j] b Hj; simpl in Hj; try discriminate.
  - injection Hj as ->. cbn [store_bytes].
    rewrite store_bytes_outside by lia.
    replace (a + Z.of_nat 0) with a by lia. apply lookup_insert_eq.
  - cbn [store_bytes].
    replace (a + Z.of_nat (S j)) with (a + 1 + Z.of_nat j) by lia.
    by apply IH.
Qed.

Lemma load_bytes_length n : forall (a : Z) (m : gmap Z byte),
  length (load_bytes a n m) = n.
Proof. induction n as [|n IH]; intros a m; simpl; [|rewrite IH]; reflexivity. Qed.

Lemma load_bytes_lookup n : forall (a : Z) (m : gmap Z byte) (j : nat),
  (j < n)%nat ->
  load_bytes a n m !! j = Some (m !! (a + Z.of_nat j)).
Proof.
  induction n as [|n IH]; intros a m [|j] Hj; simpl; try lia.
  - do 2 f_equal. lia.
  - rewrite IH by lia. do 2 f_equal. lia.
Qed.

Lemma strlen_le s : (strlen s <= length s)%nat.
Proof.
  induction s as [|b r IH]; simpl; [lia|].
  destruct (Byte.eqb b x00); lia.
Qed.

Lemma c_string_length s : length (c_string s) = strlen s.
Proof. unfold c_string. rewrite length_take. pose proof (strlen_le s). lia. Qed.

(** A string without a NUL byte is its own characters. *)
Lemma c_string_id s : Forall (fun b => b <> x00) s -> c_string s = s.
Proof.
  unfold c_string. induction 1 as [|b r Hb _ IH]; simpl; [reflexivity|].
  destruct (Byte.eqb b x00) eqn:E.
  - apply Byte.byte_dec_bl in E. contradiction.
  - simpl. by rewrite IH.
Qed.

(** *** Opening a handle *)

Lemma strlen_msg : strlen msg = 41%nat.
Proof. reflexivity. Qed.

Lemma c_string_msg : take (strlen msg) msg = msg.
Proof. reflexivity. Qed.

(** With both allocations answered, [my_open] returns [0] and leaves the
    handle bound to the new [mmap_info], whose page was zeroed and then
    written with [msg] and the characters of the name.  The [ref] field
    keeps what the slab block held. *)
Lemma my_open_run a filp k :
  kmalloc_ret a <> 0 ->
  0 < page_ret a ->
  my_open a filp k =
    Done (0, mk_file (d_name filp) (kmalloc_ret a))
         (mk_kernel
            (<[kmalloc_ret a := mk_info (page_ret a) (ref (kmalloc_junk a))]>
               (kheap k))
            (store_bytes (page_ret a + 41) (c_string (d_name filp))
               (store_bytes (page_ret a) msg
                  (store_bytes (page_ret a)
                     (replicate (Z.to_nat PAGE_SIZE) x00) (kmem k))))
            (got_pages k) (klog k ++ [pr_info "== my_open =="])).
Proof.
  intros Hinfo Hpage.
  assert (E1 : (kmalloc_ret a =? 0) = false) by (apply Z.eqb_neq; lia).
  assert (E2 : (page_ret a =? 0) = false) by (apply Z.eqb_neq; lia).
  assert (E3 : (page_ret a + Z.of_nat 41 =? 0) = false) by (apply Z.eqb_neq; lia).
  unfold my_open, kbind, PRINTFUNC, printk, kmalloc, get_zeroed_page,
    read_info, write_info, memcpy.
  rewrite c_string_msg, strlen_msg, E1, E2.
  repeat first [ progress kernel_simpl | rewrite E2 | rewrite E3 ].
  rewrite insert_insert_eq. reflexivity.
Qed.

Lemma load_bytes_ext n : forall (a : Z) (m m' : gmap Z byte),
  (forall x, a <= x < a + Z.of_nat n -> m !! x = m' !! x) ->
  load_bytes a n m = load_bytes a n m'.
Proof.
  induction n as [|n IH]; intros a m m' Hext; simpl; [reflexivity|].
  rewrite (Hext a) by lia. f_equal. apply IH. intros x Hx. apply Hext. lia.
Qed.

Lemma page_image_length name :
  Z.of_nat (length msg) + Z.of_nat (strlen name) <= PAGE_SIZE ->
  length (page_image name) = Z.to_nat PAGE_SIZE.
Proof.
  intros Hfit. unfold page_image.
  rewrite !length_app, c_string_length, length_replicate. lia.
Qed.

(** The page of a handle just opened, when prefix and name fit in it:
    the page reads as [page_image], and no byte outside it changed. *)
Lemma my_open_page a filp k :
  kmalloc_ret a <> 0 ->
  0 < page_ret a ->
  Z.of_nat (length msg) + Z.of_nat (strlen (d_name filp)) <= PAGE_SIZE ->
  exists k',
    my_open a filp k = Done (0, mk_file (d_name filp) (kmalloc_ret a)) k' /\
    kheap k' =
      <[kmalloc_ret a := mk_info (page_ret a) (ref (kmalloc_junk a))]> (kheap k) /\
    load_bytes (page_ret a) (Z.to_nat PAGE_SIZE) (kmem k') =
      Some <$> page_image (d_name filp) /\
    (forall x, x < page_ret a \/ page_ret a + PAGE_SIZE <= x ->
               kmem k' !! x = kmem k !! x).
Proof.
  intros Hinfo Hpage Hfit. rewrite (my_open_run _ _ _ Hinfo Hpage).
  eexists. split; [reflexivity|]. cbn [kheap kmem]. split; [reflexivity|].
  change (Z.of_nat (length msg)) with 41 in Hfit.
  set (name := d_name filp) in *. set (pg := page_ret a) in *.
  pose proof (c_string_length name) as Hlen.
  split.
  - apply list_eq. intros j.
    destruct (decide (j < Z.to_nat PAGE_SIZE)%nat) as [Hj|Hj].
    + rewrite load_bytes_lookup by exact Hj. rewrite list_lookup_fmap.
      unfold page_image.
      destruct (decide (j < 41)%nat) as [Hm|Hm].
      * rewrite store_bytes_outside by lia.
        destruct (lookup_lt_is_Some_2 msg j) as [b Hb]; [exact Hm|].
        rewrite (store_bytes_inside _ _ _ _ _ Hb).
        rewrite lookup_app_l by exact Hm. by rewrite Hb.
      * rewrite lookup_app_r by (change (length msg) with 41%nat; lia).
        change (length msg) with 41%nat.
        destruct (decide (j - 41 < strlen name)%nat) as [Hn|Hn].
        -- destruct (lookup_lt_is_Some_2 (c_string name) (j - 41)) as [b Hb];
             [lia|].
           replace (pg + Z.of_nat j) with (pg + 41 + Z.of_nat (j - 41)) by lia.
           rewrite (store_bytes_inside _ _ _ _ _ Hb).
           rewrite lookup_app_l by lia. by rewrite Hb.
        -- rewrite store_bytes_outside by lia.
           rewrite store_bytes_outside by (change (length msg) with 41%nat; lia).
           rewrite lookup_app_r by lia.
           rewrite (store_bytes_inside _ _ _ j x00)
             by (apply lookup_replicate_2; exact Hj).
           rewrite lookup_replicate_2 by lia. reflexivity.
    + rewrite !lookup_ge_None_2; [reflexivity| |].
      * rewrite length_fmap, page_image_length; [lia|].
        change (Z.of_nat (length msg)) with 41. exact Hfit.
      * rewrite load_bytes_length. lia.
  - intros x Hx.
    rewrite store_bytes_outside by lia.
    rewrite store_bytes_outside by (change (length msg) with 41%nat; lia).
    rewrite store_bytes_outside by (rewrite length_replicate; lia).
    reflexivity.
Qed.

(** C7, as the code has it: two handles opened one after the other,
    each with a name that fits in a page behind the prefix, the
    allocators handing out distinct blocks and disjoint pages.  Both
    opens return [0]; the two handles are bound to distinct
    [mmap_info] objects with distinct pages; each page reads as the
    prefix, the characters of the handle's own name, and zeros; and no
    byte outside the two pages was written. *)
Theorem my_open_two_handles a1 a2 (f1 f2 : file) k :
  kmalloc_ret a1 <> 0 -> kmalloc_ret a2 <> 0 ->
  0 < page_ret a1 -> 0 < page_ret a2 ->
  kmalloc_ret a1 <> kmalloc_ret a2 ->
  page_ret a1 + PAGE_SIZE <= page_ret a2 \/
    page_ret a2 + PAGE_SIZE <= page_ret a1 ->
  Z.of_nat (length msg) + Z.of_nat (strlen (d_name f1)) <= PAGE_SIZE ->
  Z.of_nat (length msg) + Z.of_nat (strlen (d_name f2)) <= PAGE_SIZE ->
  exists k1 k2,
    my_open a1 f1 k = Done (0, mk_file (d_name f1) (kmalloc_ret a1)) k1 /\
    my_open a2 f2 k1 = Done (0, mk_file (d_name f2) (kmalloc_ret a2)) k2 /\
    data <$> kheap k2 !! kmalloc_ret a1 = Some (page_ret a1) /\
    data <$> kheap k2 !! kmalloc_ret a2 = Some (page_ret a2) /\
    page_ret a1 <> page_ret a2 /\
    load_bytes (page_ret a1) (Z.to_nat PAGE_SIZE) (kmem k2) =
      Some <$> page_image (d_name f1) /\
    load_bytes (page_ret a2) (Z.to_nat PAGE_SIZE) (kmem k2) =
      Some <$> page_image (d_name f2) /\
    (forall x,
       (x < page_ret a1 \/ page_ret a1 + PAGE_SIZE <= x) ->
       (x < page_ret a2 \/ page_ret a2 + PAGE_SIZE <= x) ->
       kmem k2 !! x = kmem k !! x).
Proof.
  intros Hi1 Hi2 Hp1 Hp2 Hne Hdisj Hfit1 Hfit2.
  destruct (my_open_page a1 f1 k Hi1 Hp1 Hfit1) as (k1 & Hrun1 & Hh1 & Hpg1 & Hout1).
  destruct (my_open_page a2 f2 k1 Hi2 Hp2 Hfit2) as (k2 & Hrun2 & Hh2 & Hpg2 & Hout2).
  assert (Hsize : 0 < PAGE_SIZE).
  { change (Z.of_nat (length msg)) with 41 in Hfit1. lia. }
  exists k1, k2. split; [exact Hrun1|]. split; [exact Hrun2|].
  split; [|split; [|split; [|split; [|split]]]].
  - rewrite Hh2, lookup_insert_ne by congruence.
    rewrite Hh1, lookup_insert_eq. reflexivity.
  - rewrite Hh2, lookup_insert_eq. reflexivity.
  - lia.
  - rewrite <- Hpg1. apply load_bytes_ext. intros x Hx. apply Hout2. lia.
  - exact Hpg2.
  - intros x Hx1 Hx2. rewrite Hout2 by exact Hx2. apply Hout1. exact Hx1.
Qed.

Lemma my_open_oops a filp k :
  kheap k !! 0 = None ->
  kmalloc_ret a = 0 \/ page_ret a = 0 ->
  exists k', my_open a filp k = Oops k'.
Proof.
  intros Hnull Hfail.
  unfold my_open, kbind, PRINTFUNC, printk, kmalloc, get_zeroed_page,
    read_info, write_info, memcpy.
  destruct (Z.eqb_spec (kmalloc_ret a) 0) as [E1|E1].
  - destruct (page_ret a =? 0); kernel_simpl; rewrite Hnull; eexists; reflexivity.
  - destruct Hfail as [?|E2]; [contradiction|]. rewrite E2. kernel_simpl.
    rewrite strlen_msg. eexists. reflexivity.
Qed.

(** C6, as the code has it: [my_open] tests neither allocation.  When
    [kmalloc] or [get_zeroed_page] answers [NULL] it never gets as far
    as binding the handle or returning: it stops at a null pointer
    dereference, so its caller sees neither [0] nor an error code. *)
Theorem my_open_alloc_failure a filp k :
  kheap k !! 0 = None ->
  kmalloc_ret a = 0 \/ page_ret a = 0 ->
  (exists k', my_open a filp k = Oops k') /\
  ~ (exists e f k', my_open a filp k = Done (e, f) k').
Proof.
  intros Hnull Hfail.
  destruct (my_open_oops a filp k Hnull Hfail) as (k' & Hrun).
  split; [exists k'; exact Hrun|].
  intros (e & f & k1 & Hdone). rewrite Hrun in Hdone. discriminate.
Qed.

(** The count a handle shows after it is opened and mapped once: what
    the slab block held, plus one. *)
Lemma open_then_mmap_ref a filp vma k :
  kmalloc_ret a <> 0 ->
  0 < page_ret a ->
  exists f v k',
    open_then_mmap a filp vma k = Done (f, v) k' /\
    private_data f = kmalloc_ret a /\
    ref_at (private_data f) k' = Some (int_wrap (ref (kmalloc_junk a) + 1)).
Proof.
  intros Hinfo Hpage. unfold open_then_mmap, kbind.
  rewrite (my_open_run _ _ _ Hinfo Hpage). cbn [snd].
  erewrite my_mmap_run by (cbn [kheap private_data]; apply lookup_insert_eq).
  do 3 eexists. split; [reflexivity|]. split; [reflexivity|].
  unfold ref_at. cbn [kheap private_data snd fst].
  rewrite lookup_insert_eq. reflexivity.
Qed.

Lemma count_open_replicate (n : nat) :
  count_open (replicate n ev_open) = Z.of_nat n.
Proof. induction n as [|n IH]; [reflexivity|]. cbn [replicate count_open]. lia. Qed.

Lemma count_close_replicate (n : nat) :
  count_close (replicate n ev_open) = 0.
Proof. induction n as [|n IH]; [reflexivity|]. exact IH. Qed.

(** A region created and then opened [n] more times. *)
Lemma establish_opens_ref filp vma k i (n : nat) :
  kheap k !! private_data filp = Some i ->
  exists k',
    establish filp vma (replicate n ev_open) k = Done tt k' /\
    ref_at (private_data filp) k' = Some (int_wrap (ref i + 1 + Z.of_nat n)).
Proof.
  intros Hi. unfold establish, kbind.
  rewrite (my_mmap_run _ _ _ _ Hi). cbn [snd].
  set (k1 := mk_kernel _ _ _ _).
  set (v := mk_vma _ _ _ _ _).
  assert (Hk1 : kheap k1 !! vm_private_data v =
                Some (mk_info (data i) (int_wrap (ref i + 1)))).
  { unfold k1, v. cbn [kheap vm_private_data]. apply lookup_insert_eq. }
  destruct (deliver_all_ref v (replicate n ev_open) k1 _ Hk1 (int_wrap_range _))
    as (k2 & Hrun & Hk2).
  exists k2. split; [exact Hrun|].
  unfold ref_at. change (private_data filp) with (vm_private_data v).
  rewrite Hk2. cbn [fmap option_fmap option_map ref data].
  rewrite count_open_replicate, count_close_replicate, Z.sub_0_r, int_wrap_add.
  reflexivity.
Qed.

End Properties.

(** ** The properties at concrete inputs

    Everything below runs on [linux_4k]. *)

(** *** Fault resolution *)

Lemma fault_in_range_resolves_witness :
  kheap (k_handle 1) !! vm_private_data vma_handle = Some (mk_info 8192 1) /\
  my_vma_nopage (H:=linux_4k) (Some vma_handle) vmf_start (k_handle 1) =
    Done (0, mk_vmf 4096 2)
         (mk_kernel (kheap (k_handle 1)) ∅ [2] [pr_info "== my_vma_nopage =="]).
Proof.
  split; [reflexivity|].
  apply (fault_in_range_resolves (H:=linux_4k) vma_handle vmf_start (k_handle 1)
           (mk_info 8192 1)).
  - reflexivity.
  - discriminate.
  - simpl. lia.
Defined.

Lemma bus_error_no_side_effect_witness :
  my_vma_nopage (H:=linux_4k) (Some vma_handle) vmf_above (k_handle 1) =
    Done (VM_FAULT_SIGBUS (Platform:=linux_4k), vmf_above) k_sigbus /\
  vmf_above = vmf_above /\
  got_pages k_sigbus = got_pages (k_handle 1) /\
  kheap k_sigbus = kheap (k_handle 1) /\
  kmem k_sigbus = kmem (k_handle 1) /\
  (Some vma_handle = None \/
   exists v, Some vma_handle = Some v /\
     (vm_end v < virtual_address vmf_above \/
      exists i, kheap (k_handle 1) !! vm_private_data v = Some i /\ data i = 0)).
Proof.
  split; [reflexivity|].
  apply (bus_error_no_side_effect (H:=linux_4k) (Some vma_handle) vmf_above
           (k_handle 1) 2 vmf_above k_sigbus); reflexivity.
Defined.

Lemma fault_bus_error_iff_witness :
  virtual_address vmf_above <> vm_end vma_handle /\
  exists r vmf' k',
    my_vma_nopage (H:=linux_4k) (Some vma_handle) vmf_above (k_handle 1) =
      Done (r, vmf') k' /\
    (r = VM_FAULT_SIGBUS (Platform:=linux_4k) <->
       vm_end vma_handle < virtual_address vmf_above \/ data (mk_info 8192 1) = 0) /\
    (r <> VM_FAULT_SIGBUS (Platform:=linux_4k) ->
       r = 0 /\ page vmf' = virt_to_page (Platform:=linux_4k) (data (mk_info 8192 1))).
Proof.
  split; [discriminate|].
  apply (fault_bus_error_iff (H:=linux_4k) vma_handle vmf_above (k_handle 1)
           (mk_info 8192 1)).
  - reflexivity.
  - discriminate.
Defined.

(** A fault below [vm_start] is resolved like one inside the range: the
    handler returns [0], binds the page and takes a reference on it. *)
Lemma fault_below_start_resolves :
  virtual_address vmf_below < vm_start vma_handle /\
  my_vma_nopage (H:=linux_4k) (Some vma_handle) vmf_below (k_handle 1) =
    Done (0, mk_vmf 2048 2)
         (mk_kernel (kheap (k_handle 1)) ∅ [2] [pr_info "== my_vma_nopage =="]) /\
  0 <> VM_FAULT_SIGBUS (Platform:=linux_4k).
Proof. split; [reflexivity|]. split; [reflexivity|discriminate]. Qed.

(** The comparison with [vm_end] is strict: a fault at [vm_end] itself,
    the first address behind the region, is resolved as well. *)
Example fault_at_end_resolves :
  my_vma_nopage (H:=linux_4k) (Some vma_handle) (mk_vmf 8192 0) (k_handle 1) =
    Done (0, mk_vmf 8192 2)
         (mk_kernel (kheap (k_handle 1)) ∅ [2] [pr_info "== my_vma_nopage =="]).
Proof. reflexivity. Qed.

(** *** Reference counting *)

Lemma vma_open_close_frame_witness :
  kheap (k_handle 1) !! vm_private_data vma_handle = Some (mk_info 8192 1) /\
  exists k',
    my_vma_close vma_handle (k_handle 1) = Done tt k' /\
    kmem k' = kmem (k_handle 1) /\
    got_pages k' = got_pages (k_handle 1) /\
    (forall p, p <> vm_private_data vma_handle ->
               kheap k' !! p = kheap (k_handle 1) !! p) /\
    exists r, kheap k' !! vm_private_data vma_handle = Some (mk_info 8192 r).
Proof.
  split; [reflexivity|].
  apply (vma_open_close_frame my_vma_close vma_handle (k_handle 1) (mk_info 8192 1)).
  - right. reflexivity.
  - reflexivity.
Defined.

Lemma my_mmap_succeeds_witness :
  kheap (k_handle 0) !! private_data filp_handle = Some (mk_info 8192 0) /\
  exists vma' k',
    my_mmap (H:=linux_4k) filp_handle vma_request (k_handle 0) = Done (0, vma') k' /\
    vm_ops vma' = ops_my_vm_ops /\
    vm_flags vma' = 0x04040000 /\
    vm_private_data vma' = 1000 /\
    vm_start vma' = 4096 /\ vm_end vma' = 8192 /\
    kheap k' = <[1000 := mk_info 8192 1]> (kheap (k_handle 0)) /\
    kmem k' = kmem (k_handle 0) /\ got_pages k' = got_pages (k_handle 0).
Proof.
  split; [reflexivity|].
  apply (my_mmap_succeeds (H:=linux_4k) filp_handle vma_request (k_handle 0)
           (mk_info 8192 0)).
  reflexivity.
Defined.

Lemma my_vma_close_at_zero_witness :
  ref (mk_info 8192 0) = 0 /\
  exists k',
    my_vma_close vma_handle (k_handle 0) = Done tt k' /\
    ref_at (vm_private_data vma_handle) k' = Some (-1) /\
    new_lines (k_handle 0) k' = [pr_info "== my_vma_close =="].
Proof.
  split; [reflexivity|].
  apply (my_vma_close_at_zero vma_handle (k_handle 0) (mk_info 8192 0));
    reflexivity.
Defined.

(** Closing at zero is not detected: the call returns, the count is [-1],
    and no error line was logged. *)
Lemma my_vma_close_underflow_unreported :
  exists k',
    my_vma_close vma_handle (k_handle 0) = Done tt k' /\
    ref_at (vm_private_data vma_handle) k' = Some (-1) /\
    existsb is_pr_err (new_lines (k_handle 0) k') = false.
Proof.
  rewrite (my_vma_close_run vma_handle (k_handle 0) (mk_info 8192 0) eq_refl).
  eexists. split; [reflexivity|]. split; reflexivity.
Qed.

Lemma refcount_never_negative_witness :
  (forall n, count_close (take n fork_unmap_unmap)
             <= 1 + count_open (take n fork_unmap_unmap)) /\
  (forall n, 1 + count_open (take n fork_unmap_unmap)
               - count_close (take n fork_unmap_unmap) <= INT_MAX) /\
  forall n, exists k' r,
    establish (H:=linux_4k) filp_handle vma_request (take n fork_unmap_unmap)
      (k_handle 0) = Done tt k' /\
    ref_at (private_data filp_handle) k' = Some r /\
    r = 1 + count_open (take n fork_unmap_unmap)
        - count_close (take n fork_unmap_unmap) /\
    0 <= r.
Proof.
  assert (Hbal : forall n, count_close (take n fork_unmap_unmap)
                           <= 1 + count_open (take n fork_unmap_unmap)).
  { intros [|[|[|[|n]]]]; simpl; lia. }
  assert (Hmax : forall n, 1 + count_open (take n fork_unmap_unmap)
                             - count_close (take n fork_unmap_unmap) <= INT_MAX).
  { intros [|[|[|[|n]]]]; simpl; unfold INT_MAX; lia. }
  split; [exact Hbal|]. split; [exact Hmax|].
  exact (refcount_never_negative (H:=linux_4k) filp_handle vma_request (k_handle 0)
           (mk_info 8192 0) fork_unmap_unmap eq_refl eq_refl Hbal Hmax).
Defined.

(** [INT_MAX] opens after the mapping is created: no close at all, and
    the count ends at [INT_MIN]. *)
Lemma refcount_wraps_negative :
  (forall n, count_close (take n many_opens) <= 1 + count_open (take n many_opens)) /\
  exists k',
    establish (H:=linux_4k) filp_handle vma_request many_opens (k_handle 0) =
      Done tt k' /\
    ref_at (private_data filp_handle) k' = Some INT_MIN /\
    INT_MIN < 0.
Proof.
  split.
  - intros n. unfold many_opens.
    rewrite take_replicate, count_close_replicate, count_open_replicate. lia.
  - destruct (establish_opens_ref (H:=linux_4k) filp_handle vma_request (k_handle 0)
                (mk_info 8192 0) (Z.to_nat INT_MAX) eq_refl) as (k' & Hrun & Href).
    exists k'. split; [exact Hrun|]. split; [|reflexivity].
    rewrite Href, Z2Nat.id by discriminate. reflexivity.
Qed.

(** *** Opening a handle *)

(** C3 at a slab block that held [7] in the [ref] field: after [my_open]
    and the first [my_mmap], the count of the fresh handle is [8]. *)
Lemma fresh_handle_ref_after_mmap :
  exists f v k',
    open_then_mmap (H:=linux_4k) alloc_ok (mk_file dev0 0) vma_request k_idle =
      Done (f, v) k' /\
    ref_at (private_data f) k' = Some 8 /\
    ref_at (private_data f) k' <> Some 1.
Proof.
  destruct (open_then_mmap_ref (H:=linux_4k) alloc_ok (mk_file dev0 0) vma_request
              k_idle) as (f & v & k' & Hrun & _ & Href);
    [discriminate | reflexivity |].
  exists f, v, k'. split; [exact Hrun|]. rewrite Href. split; [reflexivity|discriminate].
Qed.

Lemma my_open_alloc_failure_witness :
  kheap k_idle !! 0 = None /\
  (kmalloc_ret alloc_no_page = 0 \/ page_ret alloc_no_page = 0) /\
  (exists k', my_open (H:=linux_4k) alloc_no_page (mk_file dev0 0) k_idle = Oops k') /\
  ~ (exists e f k',
       my_open (H:=linux_4k) alloc_no_page (mk_file dev0 0) k_idle = Done (e, f) k').
Proof.
  split; [reflexivity|]. split; [right; reflexivity|].
  apply (my_open_alloc_failure (H:=linux_4k) alloc_no_page (mk_file dev0 0) k_idle).
  - reflexivity.
  - right. reflexivity.
Defined.

(** With [kmalloc] failing, [my_open] hands nothing back to its caller:
    no return value exists, an error code least of all. *)
Lemma my_open_failure_returns_nothing :
  kmalloc_ret alloc_no_info = 0 /\
  (exists k', my_open (H:=linux_4k) alloc_no_info (mk_file dev0 0) k_idle = Oops k') /\
  ~ (exists e f k',
       my_open (H:=linux_4k) alloc_no_info (mk_file dev0 0) k_idle = Done (e, f) k').
Proof.
  split; [reflexivity|].
  destruct (my_open_oops (H:=linux_4k) alloc_no_info (mk_file dev0 0) k_idle
              eq_refl (or_introl eq_refl)) as (k' & Hrun).
  split; [exists k'; exact Hrun|].
  intros (e & f & k1 & Hdone). rewrite Hrun in Hdone. discriminate.
Qed.

Lemma my_open_two_handles_witness :
  (page_ret alloc_ok + PAGE_SIZE (Platform:=linux_4k) <= page_ret alloc_ok' \/
   page_ret alloc_ok' + PAGE_SIZE (Platform:=linux_4k) <= page_ret alloc_ok) /\
  Z.of_nat (length msg) + Z.of_nat (strlen dev0) <= PAGE_SIZE (Platform:=linux_4k) /\
  exists k1 k2,
    my_open (H:=linux_4k) alloc_ok (mk_file dev0 0) k_idle =
      Done (0, mk_file dev0 1000) k1 /\
    my_open (H:=linux_4k) alloc_ok' (mk_file dev1 0) k1 =
      Done (0, mk_file dev1 2000) k2 /\
    data <$> kheap k2 !! 1000 = Some 8192 /\
    data <$> kheap k2 !! 2000 = Some 16384 /\
    8192 <> 16384 /\
    load_bytes 8192 4096 (kmem k2) = Some <$> page_image (H:=linux_4k) dev0 /\
    load_bytes 16384 4096 (kmem k2) = Some <$> page_image (H:=linux_4k) dev1 /\
    (forall x,
       (x < 8192 \/ 8192 + 4096 <= x) ->
       (x < 16384 \/ 16384 + 4096 <= x) ->
       kmem k2 !! x = kmem k_idle !! x).
Proof.
  assert (Hdisj : page_ret alloc_ok + PAGE_SIZE (Platform:=linux_4k)
                    <= page_ret alloc_ok' \/
                  page_ret alloc_ok' + PAGE_SIZE (Platform:=linux_4k)
                    <= page_ret alloc_ok) by (left; discriminate).
  assert (Hfit0 : Z.of_nat (length msg) + Z.of_nat (strlen dev0)
                  <= PAGE_SIZE (Platform:=linux_4k)) by discriminate.
  assert (Hfit1 : Z.of_nat (length msg) + Z.of_nat (strlen dev1)
                  <= PAGE_SIZE (Platform:=linux_4k)) by discriminate.
  split; [exact Hdisj|]. split; [exact Hfit0|].
  apply (my_open_two_handles (H:=linux_4k) alloc_ok alloc_ok'
           (mk_file dev0 0) (mk_file dev1 0) k_idle);
    solve [discriminate | reflexivity | assumption].
Defined.

(** A name of 4056 bytes behind the 41 bytes of the prefix: [my_open]
    returns [0], and the byte just behind the page, untouched before, now
    holds the last character of the name. *)
Lemma my_open_long_name_overruns :
  PAGE_SIZE (Platform:=linux_4k)
    < Z.of_nat (length msg) + Z.of_nat (strlen long_name) /\
  kmem k_idle !! (page_ret alloc_ok + PAGE_SIZE (Platform:=linux_4k)) = None /\
  exists k',
    my_open (H:=linux_4k) alloc_ok (mk_file long_name 0) k_idle =
      Done (0, mk_file long_name 1000) k' /\
    kmem k' !! (page_ret alloc_ok + PAGE_SIZE (Platform:=linux_4k)) = Some "a"%byte.
Proof.
  split; [reflexivity|]. split; [reflexivity|].
  rewrite (my_open_run (H:=linux_4k) alloc_ok (mk_file long_name 0) k_idle)
    by (discriminate || reflexivity).
  eexists. split; [reflexivity|].
  cbn [kmem]. vm_compute. reflexivity.
Qed.

(** ** Further properties of the driver *)

Section Lifecycle_properties.

Context `{Platform}.

Implicit Types (k : kernel) (m : machine) (i : mmap_info)
  (vma v : vm_area_struct) (vmf : vm_fault) (filp : file) (a : allocation)
  (evs : list vma_event).

(** *** Releasing a handle *)

Lemma my_release_run filp m i :
  kheap (m_kernel m) !! private_data filp = Some i ->
  my_release filp m =
    MDone (0, mk_file (d_name filp) 0)
      (mk_machine
         (mk_kernel (delete (private_data filp) (kheap (m_kernel m)))
            (kmem (m_kernel m)) (got_pages (m_kernel m))
            (klog (m_kernel m) ++ [pr_info "== my_release =="]))
         (m_calls m ++ [call_free_page (data i)])).
Proof.
  intros Hi.
  unfold my_release, mbind, lift_k, PRINTFUNC, printk, read_info, free_page,
    platform_do, kfree.
  cbn [m_kernel m_calls kheap kmem got_pages klog set_kheap].
  rewrite Hi. reflexivity.
Qed.

Lemma my_release_invalid filp m :
  kheap (m_kernel m) !! private_data filp = None ->
  my_release filp m =
    MOops (mk_machine
             (mk_kernel (kheap (m_kernel m)) (kmem (m_kernel m))
                (got_pages (m_kernel m))
                (klog (m_kernel m) ++ [pr_info "== my_release =="]))
             (m_calls m)).
Proof.
  intros Hi.
  unfold my_release, mbind, lift_k, PRINTFUNC, printk, read_info.
  cbn [m_kernel m_calls kheap kmem got_pages klog set_kheap].
  rewrite Hi. reflexivity.
Qed.


(** X1: [my_release] on a handle bound to a live [mmap_info] returns [0]
    whatever its count is; it passes the [data] pointer to [free_page]
    once, takes the [mmap_info] out of slab memory and clears the
    handle's private pointer.  The other [mmap_info] objects, page memory
    and the [get_page] calls are as before. *)
Theorem my_release_frees filp m i :
  kheap (m_kernel m) !! private_data filp = Some i ->
  exists f' m',
    my_release filp m = MDone (0, f') m' /\
    private_data f' = 0 /\ d_name f' = d_name filp /\
    m_calls m' = m_calls m ++ [call_free_page (data i)] /\
    kheap (m_kernel m') !! private_data filp = None /\
    (forall p, p <> private_data filp ->
               kheap (m_kernel m') !! p = kheap (m_kernel m) !! p) /\
    kmem (m_kernel m') = kmem (m_kernel m) /\
    got_pages (m_kernel m') = got_pages (m_kernel m).
Proof.
  intros Hi. rewrite (my_release_run _ _ _ Hi).
  do 2 eexists. split; [reflexivity|]. cbn.
  repeat split.
  - apply lookup_delete_eq.
  - intros p Hp. by apply lookup_delete_ne.
Qed.

(** X2: a handle is released once.  With nothing stored at [NULL], a
    second [my_release] on the file the first one left stops at the null
    pointer before any platform call: the page is not handed to
    [free_page] twice. *)
Theorem my_release_twice filp m i :
  kheap (m_kernel m) !! 0 = None ->
  kheap (m_kernel m) !! private_data filp = Some i ->
  exists f' m' m'',
    my_release filp m = MDone (0, f') m' /\
    my_release f' m' = MOops m'' /\
    m_calls m'' = m_calls m ++ [call_free_page (data i)] /\
    kheap (m_kernel m'') = kheap (m_kernel m').
Proof.
  intros Hnull Hi. rewrite (my_release_run _ _ _ Hi).
  do 3 eexists. split; [reflexivity|].
  rewrite my_release_invalid.
  - split; [reflexivity|]. split; reflexivity.
  - cbn. destruct (decide (private_data filp = 0)) as [->|Hne].
    + apply lookup_delete_eq.
    + by rewrite lookup_delete_ne.
Qed.



(** *** Mapping *)


(** X6: the count belongs to the handle, not to the region.  Two
    regions mapped from one handle hold the same pointer, the count
    went up by two, and closing the first region takes one off the count
    the second one sees. *)
Theorem regions_share_counter filp vma1 vma2 k i :
  kheap k !! private_data filp = Some i ->
  exists v1 v2 k' k'',
    mmap_twice filp vma1 vma2 k = Done (v1, v2) k' /\
    vm_private_data v1 = vm_private_data v2 /\
    ref_at (vm_private_data v2) k' = Some (int_wrap (ref i + 2)) /\
    my_vma_close v1 k' = Done tt k'' /\
    ref_at (vm_private_data v2) k'' = Some (int_wrap (ref i + 1)).
Proof.
  intros Hi. unfold mmap_twice, kbind. cbn [fops_mmap my_fops].
  rewrite (my_mmap_run _ _ _ _ Hi). cbn [snd].
  erewrite my_mmap_run by (cbn [kheap]; apply lookup_insert_eq). cbn [snd data ref].
  do 4 eexists. split; [reflexivity|]. split; [reflexivity|].
  unfold ref_at. cbn [vm_private_data kheap]. rewrite lookup_insert_eq.
  split.
  { cbn [fmap option_fmap option_map ref]. rewrite int_wrap_add.
    do 2 f_equal. lia. }
  erewrite my_vma_close_run by (cbn [vm_private_data kheap]; apply lookup_insert_eq).
  split; [reflexivity|]. cbn [kheap vm_private_data data ref].
  rewrite lookup_insert_eq. cbn [fmap option_fmap option_map ref].
  rewrite (int_wrap_add (ref i + 1) 1), <- Z.add_opp_r, int_wrap_add.
  do 2 f_equal. lia.
Qed.

(** *** Notifications *)

(** X7: an open and the close that follows it cancel, and so do a close
    and the open that follows it, at every value of the count: slab
    memory is exactly what it was, also when the first step wrapped. *)
Theorem open_close_round_trip vma k i :
  kheap k !! vm_private_data vma = Some i ->
  INT_MIN <= ref i <= INT_MAX ->
  exists k1 k2,
    open_close vma k = Done tt k1 /\ kheap k1 = kheap k /\
    close_open vma k = Done tt k2 /\ kheap k2 = kheap k /\
    kmem k1 = kmem k /\ kmem k2 = kmem k /\
    got_pages k1 = got_pages k /\ got_pages k2 = got_pages k.
Proof.
  intros Hi Hr. unfold open_close, close_open, kbind. cbn [open close my_vm_ops].
  rewrite (my_vma_open_run _ _ _ Hi), (my_vma_close_run _ _ _ Hi).
  erewrite my_vma_close_run by (cbn [kheap]; apply lookup_insert_eq).
  erewrite my_vma_open_run by (cbn [kheap]; apply lookup_insert_eq).
  do 2 eexists. cbn [kheap kmem got_pages data ref].
  assert (Hback : forall d, int_wrap (int_wrap (ref i + d) - d) = ref i).
  { intros d. rewrite <- Z.add_opp_r, int_wrap_add.
    replace (ref i + d + - d) with (ref i) by lia. by apply int_wrap_small. }
  repeat split.
  - rewrite insert_insert_eq, (Hback 1). apply insert_id. by destruct i.
  - rewrite insert_insert_eq.
    replace (int_wrap (int_wrap (ref i - 1) + 1)) with (ref i).
    + apply insert_id. by destruct i.
    + symmetry. rewrite int_wrap_add.
      replace (ref i - 1 + 1) with (ref i) by lia. by apply int_wrap_small.
Qed.

(** *** Faults *)

Lemma my_vma_nopage_run v vmf k i :
  kheap k !! vm_private_data v = Some i ->
  data i <> 0 ->
  virtual_address vmf <= vm_end v ->
  my_vma_nopage (Some v) vmf k =
    Done (0, mk_vmf (virtual_address vmf) (virt_to_page (data i)))
         (mk_kernel (kheap k) (kmem k)
            (got_pages k ++ [virt_to_page (data i)])
            (klog k ++ [pr_info "== my_vma_nopage =="])).
Proof.
  intros Hi Hd Ha. unfold my_vma_nopage, kbind, read_info.
  destruct (Z.gtb_spec (virtual_address vmf) (vm_end v)) as [Hgt|_]; [lia|].
  rewrite Hi. destruct (Z.eqb_spec (data i) 0) as [?|_]; [contradiction|].
  reflexivity.
Qed.

(** X8: whenever [my_vma_nopage] returns, slab memory, page memory and
    the fault address are as before and one line was logged; it returned
    either [VM_FAULT_SIGBUS] with no [get_page] call, or [0] with exactly
    one [get_page] call, on the page it left in the fault descriptor. *)
Theorem my_vma_nopage_frame (region : option vm_area_struct) vmf k r vmf' k' :
  my_vma_nopage region vmf k = Done (r, vmf') k' ->
  kheap k' = kheap k /\ kmem k' = kmem k /\
  virtual_address vmf' = virtual_address vmf /\
  length (new_lines k k') = 1%nat /\
  ((r = VM_FAULT_SIGBUS /\ vmf' = vmf /\ got_pages k' = got_pages k) \/
   (r = 0 /\ got_pages k' = got_pages k ++ [page vmf'])).
Proof.
  intros Hrun. unfold my_vma_nopage, kbind, read_info in Hrun.
  destruct region as [v|].
  - destruct (virtual_address vmf >? vm_end v).
    + cbn in Hrun. inversion Hrun; subst.
      rewrite new_lines_app. repeat split. by left.
    + destruct (kheap k !! vm_private_data v) as [i|]; [|discriminate].
      destruct (data i =? 0); cbn in Hrun; inversion Hrun; subst;
        rewrite new_lines_app; repeat split; [by left | by right].
  - cbn in Hrun. inversion Hrun; subst.
    rewrite new_lines_app. repeat split. by left.
Qed.

(** X9: the handler keeps no record of what it resolved.  Any faults on
    one region, at any addresses not above [vm_end] and in any number,
    all return [0] with the same page, and each one makes its own
    [get_page] call on it. *)
Theorem faults_same_page v (vmfs : list vm_fault) k i :
  kheap k !! vm_private_data v = Some i ->
  data i <> 0 ->
  Forall (fun vmf => virtual_address vmf <= vm_end v) vmfs ->
  exists k',
    faults v vmfs k =
      Done (map (fun vmf => (0, mk_vmf (virtual_address vmf)
                                  (virt_to_page (data i)))) vmfs) k' /\
    got_pages k' =
      got_pages k ++ replicate (length vmfs) (virt_to_page (data i)) /\
    kheap k' = kheap k /\ kmem k' = kmem k.
Proof.
  intros Hi Hd Hall. revert k Hi.
  induction Hall as [|vmf r Hle _ IH]; intros k Hi.
  - exists k. cbn. by rewrite app_nil_r.
  - cbn [faults fault my_vm_ops]. unfold kbind at 1.
    rewrite (my_vma_nopage_run _ _ _ _ Hi Hd Hle).
    destruct (IH (mk_kernel (kheap k) (kmem k)
                    (got_pages k ++ [virt_to_page (data i)])
                    (klog k ++ [pr_info "== my_vma_nopage =="])) Hi)
      as (k' & Hrun & Hgot & Hheap & Hmem).
    exists k'. unfold kbind. rewrite Hrun. split; [reflexivity|].
    rewrite Hgot, Hheap, Hmem. cbn. by rewrite <- app_assoc.
Qed.


(** *** The bytes [my_open] writes *)

(** X11: [my_open] copies the prefix and every character of the name,
    however long the name is and whatever the page size: byte [j] of the
    prefix followed by the name is at [data + j] afterwards. *)
Theorem my_open_copies_whole_name a filp k :
  kmalloc_ret a <> 0 ->
  0 < page_ret a ->
  exists k',
    my_open a filp k = Done (0, mk_file (d_name filp) (kmalloc_ret a)) k' /\
    forall (j : nat) b,
      (msg ++ c_string (d_name filp)) !! j = Some b ->
      kmem k' !! (page_ret a + Z.of_nat j) = Some b.
Proof.
  intros Hinfo Hpage. rewrite (my_open_run _ _ _ Hinfo Hpage).
  eexists. split; [reflexivity|]. cbn [kmem]. intros j b Hj.
  destruct (decide (j < length msg)%nat) as [Hm|Hm].
  - rewrite lookup_app_l in Hj by exact Hm.
    rewrite store_bytes_outside by (change (length msg) with 41%nat in Hm; lia).
    by apply store_bytes_inside.
  - rewrite lookup_app_r in Hj by lia.
    change (length msg) with 41%nat in *.
    replace (page_ret a + Z.of_nat j)
      with (page_ret a + 41 + Z.of_nat (j - 41)) by lia.
    by apply store_bytes_inside.
Qed.

(** *** Any calls on regions *)

Lemma region_call_step (c : region_call) k :
  is_Some (kheap k !! region_call_info c) ->
  exists k',
    region_call_run c k = Done tt k' /\
    (forall p, data <$> kheap k' !! p = data <$> kheap k !! p) /\
    kmem k' = kmem k /\
    got_pages k `prefix_of` got_pages k'.
Proof.
  intros [i Hi].
  assert (Hsame : forall p0 r p,
            kheap k !! p0 = Some i ->
            data <$> <[p0 := mk_info (data i) r]> (kheap k) !! p =
            data <$> kheap k !! p).
  { intros p0 r p Hp0. destruct (decide (p0 = p)) as [<-|Hne].
    - by rewrite lookup_insert_eq, Hp0.
    - by rewrite lookup_insert_ne. }
  destruct c as [filp vma | vma [|] | vma vmf];
    cbn [region_call_run region_call_info fops_mmap my_fops deliver open close
         fault my_vm_ops] in *.
  - unfold kbind. rewrite (my_mmap_run _ _ _ _ Hi). eexists.
    split; [reflexivity|]. cbn [kheap kmem got_pages].
    split; [intros p; by apply Hsame|]. split; reflexivity.
  - rewrite (my_vma_open_run _ _ _ Hi). eexists.
    split; [reflexivity|]. cbn [kheap kmem got_pages].
    split; [intros p; by apply Hsame|]. split; reflexivity.
  - rewrite (my_vma_close_run _ _ _ Hi). eexists.
    split; [reflexivity|]. cbn [kheap kmem got_pages].
    split; [intros p; by apply Hsame|]. split; reflexivity.
  - unfold kbind at 1. unfold my_vma_nopage.
    destruct (virtual_address vmf >? vm_end vma).
    + eexists. split; [reflexivity|]. by repeat split.
    + unfold kbind, read_info. rewrite Hi.
      destruct (data i =? 0); eexists; (split; [reflexivity|]);
        cbn [kheap kmem got_pages]; repeat split;
        first [reflexivity | by apply prefix_app_r].
Qed.

(** X12: no call on a region moves a page.  Whatever mappings,
    notifications and faults arrive, in whatever order, as long as each
    goes through a live [mmap_info] the run returns, every [mmap_info]
    has the [data] pointer it had, none appeared or went away, page
    memory is unchanged, and the [get_page] calls made before are still
    there, followed by the new ones. *)
Theorem region_calls_keep_pages (cs : list region_call) : forall k,
  Forall (fun c => is_Some (kheap k !! region_call_info c)) cs ->
  exists k',
    region_calls_run cs k = Done tt k' /\
    (forall p, data <$> kheap k' !! p = data <$> kheap k !! p) /\
    kmem k' = kmem k /\
    got_pages k `prefix_of` got_pages k'.
Proof.
  induction cs as [|c r IH]; intros k Hall.
  - exists k. by repeat split.
  - apply Forall_cons in Hall as [Hc Hr].
    destruct (region_call_step c k Hc) as (k1 & Hrun1 & Hdata1 & Hmem1 & Hgot1).
    destruct (IH k1) as (k2 & Hrun2 & Hdata2 & Hmem2 & Hgot2).
    { eapply Forall_impl; [exact Hr|]. intros c' Hc'. cbn beta in *.
      apply (fmap_is_Some data). rewrite Hdata1. by apply fmap_is_Some. }
    exists k2. cbn [region_calls_run]. unfold kbind. rewrite Hrun1.
    split; [exact Hrun2|]. split; [|split].
    + intros p. by rewrite Hdata2.
    + by rewrite Hmem2.
    + by etrans.
Qed.

(** X15: the whole decision of the handler on a region bound to a live
    [mmap_info]: it always returns; it returns [VM_FAULT_SIGBUS] exactly
    when the address is above [vm_end] or the [data] pointer is null, and
    [0] exactly when the address is at most [vm_end] and there is a
    page.  [vm_end] itself is on the resolving side, and [vm_start] does
    not enter. *)
Theorem my_vma_nopage_decides v vmf k i :
  kheap k !! vm_private_data v = Some i ->
  exists r vmf' k',
    my_vma_nopage (Some v) vmf k = Done (r, vmf') k' /\
    (r = VM_FAULT_SIGBUS <-> vm_end v < virtual_address vmf \/ data i = 0) /\
    (r = 0 <-> virtual_address vmf <= vm_end v /\ data i <> 0).
Proof.
  intros Hi. pose proof VM_FAULT_SIGBUS_nonzero as Hsig.
  unfold my_vma_nopage, kbind, read_info.
  destruct (Z.gtb_spec (virtual_address vmf) (vm_end v)) as [Hgt|Hle].
  - do 3 eexists. split; [reflexivity|]. intuition lia.
  - rewrite Hi. destruct (Z.eqb_spec (data i) 0) as [Hd|Hd];
      do 3 eexists; (split; [reflexivity|]); intuition lia.
Qed.

(** *** Order of notifications *)

Lemma deliver_all_heap v evs : forall k i,
  kheap k !! vm_private_data v = Some i ->
  INT_MIN <= ref i <= INT_MAX ->
  exists k',
    deliver_all v evs k = Done tt k' /\
    kheap k' =
      <[vm_private_data v :=
          mk_info (data i) (int_wrap (ref i + count_open evs - count_close evs))]>
        (kheap k) /\
    kmem k' = kmem k /\ got_pages k' = got_pages k.
Proof.
  induction evs as [|e r IH]; intros k i Hi Hr.
  - exists k. split; [reflexivity|]. split; [|done]. cbn [count_open count_close].
    replace (ref i + 0 - 0) with (ref i) by lia.
    rewrite int_wrap_small by exact Hr. symmetry. apply insert_id. by destruct i.
  - assert (Hstep : exists d k1,
              d = count_open [e] - count_close [e] /\
              deliver v e k = Done tt k1 /\
              kheap k1 = <[vm_private_data v :=
                             mk_info (data i) (int_wrap (ref i + d))]> (kheap k) /\
              kmem k1 = kmem k /\ got_pages k1 = got_pages k).
    { destruct e; cbn [deliver open close my_vm_ops].
      - rewrite (my_vma_open_run _ _ _ Hi). by do 2 eexists.
      - rewrite (my_vma_close_run _ _ _ Hi). by do 2 eexists. }
    destruct Hstep as (d & k1 & Hd & Hrun1 & Hheap1 & Hmem1 & Hgot1).
    destruct (IH k1 (mk_info (data i) (int_wrap (ref i + d))))
      as (k2 & Hrun2 & Hheap2 & Hmem2 & Hgot2).
    { rewrite Hheap1. apply lookup_insert_eq. }
    { apply int_wrap_range. }
    exists k2. cbn [deliver_all]. unfold kbind. rewrite Hrun1.
    split; [exact Hrun2|]. split; [|split; congruence].
    rewrite Hheap2, Hheap1, insert_insert_eq. cbn [data ref].
    rewrite <- Z.add_sub_assoc, int_wrap_add. do 3 f_equal.
    subst d. destruct e; cbn [count_open count_close]; lia.
Qed.

(** X13: notifications on a region can be reordered and cancelled
    against each other: two runs in which the opens exceed the closes by
    the same number both return and end in the same slab memory, page
    memory and [get_page] calls, whatever happened to the count on the
    way. *)
Theorem notifications_by_surplus v evs1 evs2 k i :
  kheap k !! vm_private_data v = Some i ->
  INT_MIN <= ref i <= INT_MAX ->
  count_open evs1 - count_close evs1 = count_open evs2 - count_close evs2 ->
  exists k1 k2,
    deliver_all v evs1 k = Done tt k1 /\
    deliver_all v evs2 k = Done tt k2 /\
    kheap k1 = kheap k2 /\ kmem k1 = kmem k2 /\ got_pages k1 = got_pages k2.
Proof.
  intros Hi Hr Heq.
  destruct (deliver_all_heap v evs1 k i Hi Hr) as (k1 & Hrun1 & Hh1 & Hm1 & Hg1).
  destruct (deliver_all_heap v evs2 k i Hi Hr) as (k2 & Hrun2 & Hh2 & Hm2 & Hg2).
  exists k1, k2. split; [exact Hrun1|]. split; [exact Hrun2|].
  split; [|split; congruence].
  rewrite Hh1, Hh2. do 3 f_equal. lia.
Qed.

(** *** Loading and unloading the module *)

(** X14: [my_mmap_example_init] hands the answer of [misc_register] to
    its caller as it is.  It registers the device [my_mmap] with minor
    [99] in one call, logs an error line when the answer is not [0] and
    its trace line when it is, and touches no memory.  The exit function
    deregisters the same device. *)
Theorem module_init_exit (ret : Z) m :
  exists m' m'',
    my_mmap_example_init ret m = MDone ret m' /\
    m_calls m' = m_calls m ++ [call_misc_register (mk_miscdev 99 "my_mmap" fops_my_fops)] /\
    existsb is_pr_err (new_lines (m_kernel m) (m_kernel m')) = negb (ret =? 0) /\
    length (new_lines (m_kernel m) (m_kernel m')) = 1%nat /\
    kheap (m_kernel m') = kheap (m_kernel m) /\
    kmem (m_kernel m') = kmem (m_kernel m) /\
    my_mmap_example_exit m' = MDone tt m'' /\
    m_calls m'' = m_calls m ++
      [call_misc_register (mk_miscdev 99 "my_mmap" fops_my_fops);
       call_misc_deregister (mk_miscdev 99 "my_mmap" fops_my_fops)].
Proof.
  unfold my_mmap_example_init, my_mmap_example_exit, misc_register,
    misc_deregister, mbind, platform_do, mret, lift_k, PRINTFUNC, printk.
  cbn [m_kernel m_calls].
  destruct (Z.eqb_spec ret 0) as [->|Hne]; cbn [negb m_kernel m_calls kheap kmem];
    do 2 eexists; (split; [reflexivity|]); cbn [m_kernel m_calls kheap kmem];
    rewrite new_lines_app; repeat split; by rewrite <- app_assoc.
Qed.

End Lifecycle_properties.

(** ** The further properties at concrete inputs *)

Lemma my_release_frees_witness :
  kheap (m_kernel (boot (k_handle 1))) !! private_data filp_handle =
    Some (mk_info 8192 1) /\
  exists f' m',
    my_release filp_handle (boot (k_handle 1)) = MDone (0, f') m' /\
    private_data f' = 0 /\ d_name f' = dev0 /\
    m_calls m' = [call_free_page 8192] /\
    kheap (m_kernel m') !! 1000 = None /\
    (forall p, p <> 1000 -> kheap (m_kernel m') !! p = kheap (k_handle 1) !! p) /\
    kmem (m_kernel m') = ∅ /\
    got_pages (m_kernel m') = [].
Proof.
  split; [reflexivity|].
  exact (my_release_frees filp_handle (boot (k_handle 1)) (mk_info 8192 1) eq_refl).
Defined.

Lemma my_release_twice_witness :
  kheap (m_kernel (boot (k_handle 1))) !! 0 = None /\
  exists f' m' m'',
    my_release filp_handle (boot (k_handle 1)) = MDone (0, f') m' /\
    my_release f' m' = MOops m'' /\
    m_calls m'' = [call_free_page 8192] /\
    kheap (m_kernel m'') = kheap (m_kernel m').
Proof.
  split; [reflexivity|].
  exact (my_release_twice filp_handle (boot (k_handle 1)) (mk_info 8192 1)
           eq_refl eq_refl).
Defined.



Lemma regions_share_counter_witness :
  kheap (k_handle 0) !! private_data filp_handle = Some (mk_info 8192 0) /\
  exists v1 v2 k' k'',
    mmap_twice (H:=linux_4k) filp_handle vma_request vma_request' (k_handle 0) =
      Done (v1, v2) k' /\
    vm_private_data v1 = vm_private_data v2 /\
    ref_at (vm_private_data v2) k' = Some 2 /\
    my_vma_close v1 k' = Done tt k'' /\
    ref_at (vm_private_data v2) k'' = Some 1.
Proof.
  split; [reflexivity|].
  exact (regions_share_counter (H:=linux_4k) filp_handle vma_request vma_request'
           (k_handle 0) (mk_info 8192 0) eq_refl).
Defined.

Lemma open_close_round_trip_witness :
  INT_MIN <= ref (mk_info 8192 INT_MAX) <= INT_MAX /\
  exists k1 k2,
    open_close (H:=linux_4k) vma_handle (k_handle INT_MAX) = Done tt k1 /\
    kheap k1 = kheap (k_handle INT_MAX) /\
    close_open (H:=linux_4k) vma_handle (k_handle INT_MAX) = Done tt k2 /\
    kheap k2 = kheap (k_handle INT_MAX) /\
    kmem k1 = ∅ /\ kmem k2 = ∅ /\ got_pages k1 = [] /\ got_pages k2 = [].
Proof.
  assert (Hr : INT_MIN <= ref (mk_info 8192 INT_MAX) <= INT_MAX)
    by (split; discriminate).
  split; [exact Hr|].
  exact (open_close_round_trip (H:=linux_4k) vma_handle (k_handle INT_MAX)
           (mk_info 8192 INT_MAX) eq_refl Hr).
Defined.

Lemma my_vma_nopage_frame_witness :
  my_vma_nopage (H:=linux_4k) (Some vma_handle) vmf_start (k_handle 1) =
    Done (0, mk_vmf 4096 2)
         (mk_kernel (kheap (k_handle 1)) ∅ [2] [pr_info "== my_vma_nopage =="]) /\
  kheap (k_handle 1) = kheap (k_handle 1) /\
  (∅ : gmap Z byte) = ∅ /\
  4096 = 4096 /\
  length (new_lines (k_handle 1)
            (mk_kernel (kheap (k_handle 1)) ∅ [2] [pr_info "== my_vma_nopage =="]))
    = 1%nat /\
  ((0 = VM_FAULT_SIGBUS (Platform:=linux_4k) /\ mk_vmf 4096 2 = vmf_start /\
    [2] = ([] : list Z)) \/
   (0 = 0 /\ [2] = [] ++ [2])).
Proof.
  split; [reflexivity|].
  exact (my_vma_nopage_frame (H:=linux_4k) (Some vma_handle) vmf_start (k_handle 1)
           0 (mk_vmf 4096 2)
           (mk_kernel (kheap (k_handle 1)) ∅ [2] [pr_info "== my_vma_nopage =="])
           eq_refl).
Defined.

Lemma faults_same_page_witness :
  Forall (fun vmf => virtual_address vmf <= vm_end vma_handle) three_faults /\
  exists k',
    faults (H:=linux_4k) vma_handle three_faults (k_handle 1) =
      Done [(0, mk_vmf 4096 2); (0, mk_vmf 2048 2); (0, mk_vmf 4096 2)] k' /\
    got_pages k' = [2; 2; 2] /\
    kheap k' = kheap (k_handle 1) /\ kmem k' = ∅.
Proof.
  assert (Hall : Forall (fun vmf => virtual_address vmf <= vm_end vma_handle)
                   three_faults)
    by (repeat constructor; discriminate).
  split; [exact Hall|].
  apply (faults_same_page (H:=linux_4k) vma_handle three_faults (k_handle 1)
           (mk_info 8192 1)); [reflexivity | discriminate | exact Hall].
Defined.


Lemma my_open_copies_whole_name_witness :
  kmalloc_ret alloc_ok <> 0 /\ 0 < page_ret alloc_ok /\
  exists k',
    my_open (H:=linux_4k) alloc_ok (mk_file long_name 0) k_idle =
      Done (0, mk_file long_name 1000) k' /\
    forall (j : nat) b,
      (msg ++ c_string long_name) !! j = Some b ->
      kmem k' !! (8192 + Z.of_nat j) = Some b.
Proof.
  split; [discriminate|]. split; [reflexivity|].
  apply (my_open_copies_whole_name (H:=linux_4k) alloc_ok (mk_file long_name 0)
           k_idle); solve [discriminate | reflexivity].
Defined.

Lemma region_calls_keep_pages_witness :
  Forall (fun c => is_Some (kheap (k_handle 0) !! region_call_info c))
    map_fault_unmap /\
  exists k',
    region_calls_run (H:=linux_4k) map_fault_unmap (k_handle 0) = Done tt k' /\
    (forall p, data <$> kheap k' !! p = data <$> kheap (k_handle 0) !! p) /\
    kmem k' = ∅ /\
    [] `prefix_of` got_pages k'.
Proof.
  assert (Hall : Forall (fun c => is_Some (kheap (k_handle 0) !! region_call_info c))
                   map_fault_unmap)
    by (repeat constructor; by eexists).
  split; [exact Hall|].
  exact (region_calls_keep_pages (H:=linux_4k) map_fault_unmap (k_handle 0) Hall).
Defined.

Lemma notifications_by_surplus_witness :
  count_open fork_unmap - count_close fork_unmap = count_open [] - count_close [] /\
  exists k1 k2,
    deliver_all (H:=linux_4k) vma_handle fork_unmap (k_handle 1) = Done tt k1 /\
    deliver_all (H:=linux_4k) vma_handle [] (k_handle 1) = Done tt k2 /\
    kheap k1 = kheap k2 /\ kmem k1 = kmem k2 /\ got_pages k1 = got_pages k2.
Proof.
  split; [reflexivity|].
  apply (notifications_by_surplus (H:=linux_4k) vma_handle fork_unmap []
           (k_handle 1) (mk_info 8192 1)); [reflexivity | | reflexivity].
  split; discriminate.
Defined.

Lemma my_vma_nopage_decides_witness :
  kheap (k_handle 1) !! vm_private_data vma_handle = Some (mk_info 8192 1) /\
  exists r vmf' k',
    my_vma_nopage (H:=linux_4k) (Some vma_handle) (mk_vmf 8192 0) (k_handle 1) =
      Done (r, vmf') k' /\
    (r = VM_FAULT_SIGBUS (Platform:=linux_4k) <->
       vm_end vma_handle < 8192 \/ data (mk_info 8192 1) = 0) /\
    (r = 0 <-> 8192 <= vm_end vma_handle /\ data (mk_info 8192 1) <> 0).
Proof.
  split; [reflexivity|].
  exact (my_vma_nopage_decides (H:=linux_4k) vma_handle (mk_vmf 8192 0) (k_handle 1)
           (mk_info 8192 1) eq_refl).
Defined.
